(** * coff_nm: the Binary Ninja COFF .DBG loader plugin

    A shallow embedding of [binaryninja/dbg_load/__init__.py] and the
    properties of its single command, [load_dbg_file].

    The plugin is glue code: it asks the host for a file name, runs the
    external [dbgparse] tool on it, splits the tool's output into lines,
    matches every line against one regular expression and turns each
    match into calls of the host's API.  The embedding keeps that shape:

    - Python [str] values are sequences of Unicode code points;
    - [str.splitlines], the compiled pattern [rex], [int(_, 16)] and
      [str.join] are executable functions over such sequences;
    - the host (the [BinaryView], the [demangle] and [interaction]
      modules) and [subprocess] are an interface, [Host], whose
      operations the plugin calls;
    - the command itself runs in a small monad that threads the
      [BinaryView], records every call that leaves the plugin and stops
      at the first raised exception, keeping what was done before it. *)

From Stdlib Require Import Ascii String.
From Stdlib Require Import List ZArith NArith Bool Lia.
Import ListNotations.

Set Implicit Arguments.
Local Open Scope Z_scope.

(** ** Python strings *)

(** A character is a code point; a [str] is a list of them. *)
Definition char := N.
Definition pystr := list char.

Definition chr (a : ascii) : char := N_of_ascii a.

(** [py] reads a literal of this file as a Python [str]. *)
Definition py (s : string) : pystr := map chr (list_ascii_of_string s).

Definition LF : char := 10%N.
Definition CR : char := 13%N.
Definition SP : char := chr " ".

Fixpoint str_eqb (s t : pystr) : bool :=
  match s, t with
  | [], [] => true
  | c :: s', d :: t' => N.eqb c d && str_eqb s' t'
  | _, _ => false
  end.

(** The line boundaries of [str.splitlines]: LF, VT, FF, CR, FS, GS, RS,
    NEL, LINE SEPARATOR and PARAGRAPH SEPARATOR. *)
Definition is_linebreak (c : char) : bool :=
  existsb (N.eqb c) [10; 11; 12; 13; 28; 29; 30; 133; 8232; 8233]%N.

(** [splitlines_from acc s]: the lines of [s], where [acc] holds, in
    reverse, the characters of the line being read.  CR LF is one
    boundary, and text after the last boundary is a line only when it is
    not empty. *)
Fixpoint splitlines_from (acc : pystr) (s : pystr) : list pystr :=
  match s with
  | [] => match acc with [] => [] | _ => [rev acc] end
  | c :: s' =>
      if N.eqb c CR then
        match s' with
        | d :: s'' =>
            if N.eqb d LF then rev acc :: splitlines_from [] s''
            else rev acc :: splitlines_from [] s'
        | [] => rev acc :: splitlines_from [] s'
        end
      else if is_linebreak c then rev acc :: splitlines_from [] s'
      else splitlines_from (c :: acc) s'
  end.

(** [output.splitlines()] *)
Definition splitlines (s : pystr) : list pystr := splitlines_from [] s.

(** [sep.join(parts)] *)
Fixpoint join (sep : pystr) (parts : list pystr) : pystr :=
  match parts with
  | [] => []
  | [p] => p
  | p :: rest => p ++ sep ++ join sep rest
  end.

(** ** The compiled pattern [rex]

    From left to right: the anchor [^]; group 1, one character of
    [[FGS]]; a space; group 2, [[0-9a-f]{8}]; a space; group 3, a
    starred [.]; the anchor [$]. *)

(** The character class [[FGS]]. *)
Definition class_FGS (c : char) : bool :=
  N.eqb c (chr "F") || N.eqb c (chr "G") || N.eqb c (chr "S").

(** The character class [[0-9a-f]]: two code-point ranges. *)
Definition class_hex (c : char) : bool :=
  (N.leb (chr "0") c && N.leb c (chr "9"))
  || (N.leb (chr "a") c && N.leb c (chr "f")).

(** [.] without DOTALL: any character but LF. *)
Definition class_dot (c : char) : bool := negb (N.eqb c LF).

(** The pieces of a match take a piece off the front of the remaining
    text and return it with what is left. *)
Definition one (p : char -> bool) (s : pystr) : option (pystr * pystr) :=
  match s with
  | c :: s' => if p c then Some ([c], s') else None
  | [] => None
  end.

(** [p{n}] *)
Fixpoint exactly (n : nat) (p : char -> bool) (s : pystr)
  : option (pystr * pystr) :=
  match n with
  | O => Some ([], s)
  | S n' =>
      match s with
      | c :: s' =>
          if p c then
            match exactly n' p s' with
            | Some (m, r) => Some (c :: m, r)
            | None => None
            end
          else None
      | [] => None
      end
  end.

(** [p*], greedy: the longest prefix made of [p] characters. *)
Fixpoint many (p : char -> bool) (s : pystr) : pystr * pystr :=
  match s with
  | c :: s' =>
      if p c then let (m, r) := many p s' in (c :: m, r) else ([], s)
  | [] => ([], [])
  end.

(** [$] without MULTILINE: at the end of the text, or just before a
    line feed that is its last character. *)
Definition at_end (s : pystr) : bool :=
  match s with
  | [] => true
  | [c] => N.eqb c LF
  | _ => false
  end.

(** [rex.match(line)]: [None] when there is no match, and the three
    groups otherwise.  The greedy star never has to give characters
    back: [$] holds only where it stopped or nowhere. *)
Definition rex_match (line : pystr) : option (pystr * pystr * pystr) :=
  match one class_FGS line with
  | Some (typ, r1) =>
      match one (N.eqb SP) r1 with
      | Some (_, r2) =>
          match exactly 8 class_hex r2 with
          | Some (addr, r3) =>
              match one (N.eqb SP) r3 with
              | Some (_, r4) =>
                  let (name, r5) := many class_dot r4 in
                  if at_end r5 then Some (typ, addr, name) else None
              | None => None
              end
          | None => None
          end
      | None => None
      end
  | None => None
  end.

(** ** [int(text, 16)] *)

(** The value of one digit in base 16; [int] takes either case. *)
Definition hex_digit (c : char) : option Z :=
  if N.leb (chr "0") c && N.leb c (chr "9")
  then Some (Z.of_N c - Z.of_N (chr "0"))
  else if N.leb (chr "a") c && N.leb c (chr "f")
  then Some (Z.of_N c - Z.of_N (chr "a") + 10)
  else if N.leb (chr "A") c && N.leb c (chr "F")
  then Some (Z.of_N c - Z.of_N (chr "A") + 10)
  else None.

Fixpoint int16_from (acc : Z) (s : pystr) : option Z :=
  match s with
  | [] => Some acc
  | c :: s' =>
      match hex_digit c with
      | Some d => int16_from (16 * acc + d) s'
      | None => None
      end
  end.

(** [int(s, 16)] on a text of plain digits, which is all the second
    group of [rex] can hold; [None] stands for [ValueError].  (Signs,
    the [0x] prefix, blanks and underscores, which [int] also reads, are
    left out.) *)
Definition int16 (s : pystr) : option Z :=
  match s with
  | [] => None
  | _ => int16_from 0 s
  end.

(** The value of a text of hexadecimal digits, digit by position. *)
Definition digit_value (c : char) : Z :=
  match hex_digit c with
  | Some d => d
  | None => 0
  end.

Fixpoint hex_value (s : pystr) : Z :=
  match s with
  | [] => 0
  | c :: s' => digit_value c * 16 ^ Z.of_nat (length s') + hex_value s'
  end.

(** ** The host *)

(** The members of the host's [SymbolType] that the plugin names. *)
Inductive SymbolType := FunctionSymbol | DataSymbol.

(** [Symbol(sym_type, addr, short_name, raw_name=...)] *)
Record Symbol := mkSymbol {
  sym_type : SymbolType;
  address : Z;
  short_name : pystr;
  raw_name : pystr
}.

(** The second component of what [demangle_ms] returns: a [str], or a
    [list] of name components. *)
Inductive demangled :=
| Flat (name : pystr)
| Parts (components : list pystr).

(** What the plugin uses of its surroundings.  Integers are Python's,
    unbounded.  The operations of the view change it and return; a
    function looked up at an address may be missing ([None]); the
    demangler and the external tool may fail, which is [None] here and
    an exception in the plugin.  [check_output] stands for running the
    tool and decoding what it printed. *)
Class Host := {
  BinaryView : Type;
  Architecture : Type;
  FuncType : Type;
  Function : Type;
  start : BinaryView -> Z;
  arch : BinaryView -> Architecture;
  create_user_function : Z -> BinaryView -> BinaryView;
  define_user_symbol : Symbol -> BinaryView -> BinaryView;
  get_function_at : Z -> BinaryView -> option Function;
  set_function_type : Function -> FuncType -> BinaryView -> BinaryView;
  set_comment_at : Z -> pystr -> BinaryView -> BinaryView;
  demangle_ms : Architecture -> pystr -> option (option FuncType * demangled);
  get_open_filename_input : pystr -> pystr -> option pystr;
  check_output : list pystr -> option pystr
}.

(** How the command can end early.  A constructor names the place
    where the exception comes from, not its Python class:
    [AttributeError] is the use of [None] where an object is needed
    ([.groups()] of a failed match, [.function_type] of a missing
    function); [ValueError] is a text that [int(_, 16)] cannot read;
    [DemangleError] is whatever the demangler raises; [SubprocessError]
    is whatever running the tool and decoding its output raises, of
    whichever class. *)
Inductive exn :=
| AttributeError
| ValueError
| DemangleError
| SubprocessError.

Inductive outcome (A : Type) :=
| Ok (a : A)
| Raise (e : exn).
Arguments Ok {A} a.
Arguments Raise {A} e.

Section Plugin.
Context {H : Host}.

(** A call that leaves the plugin. *)
Inductive call :=
| CheckOutput (argv : list pystr)
| DemangleMs (a : Architecture) (name : pystr)
| CreateUserFunction (addr : Z)
| DefineUserSymbol (sym : Symbol)
| GetFunctionAt (addr : Z)
| SetFunctionType (f : Function) (t : FuncType)
| SetCommentAt (addr : Z) (text : pystr).

(** ** The monad of the command

    A computation takes the view and returns the view it leaves, the
    calls it made, in order, and its result or the exception that ended
    it.  What was done before an exception stays done. *)
Definition M (A : Type) : Type :=
  BinaryView -> BinaryView * list call * outcome A.

Definition ret {A} (a : A) : M A := fun bv => (bv, [], Ok a).

Definition raise {A} (e : exn) : M A := fun bv => (bv, [], Raise e).

Definition bind {A B} (c : M A) (k : A -> M B) : M B :=
  fun bv =>
    match c bv with
    | (bv1, l1, Ok a) =>
        match k a bv1 with
        | (bv2, l2, r) => (bv2, l1 ++ l2, r)
        end
    | (bv1, l1, Raise e) => (bv1, l1, Raise e)
    end.

(** Reading the view. *)
Definition gets {A} (f : BinaryView -> A) : M A := fun bv => (bv, [], Ok (f bv)).

(** A call that changes the view. *)
Definition perform (c : call) (f : BinaryView -> BinaryView) : M unit :=
  fun bv => (f bv, [c], Ok tt).

(** A call that answers, without changing the view. *)
Definition ask {A} (c : BinaryView -> call) (f : BinaryView -> A) : M A :=
  fun bv => (bv, [c bv], Ok (f bv)).

(** A Python value that may be [None], used where it must not be. *)
Definition expect {A} (e : exn) (x : option A) : M A :=
  match x with
  | Some a => ret a
  | None => raise e
  end.

Notation "x <- c ;; k" := (bind c (fun x => k))
  (at level 61, c at next level, right associativity).
Notation "c ;; k" := (bind c (fun _ => k))
  (at level 61, right associativity).

(** [for x in xs: body(x)] *)
Fixpoint for_each {A} (xs : list A) (body : A -> M unit) : M unit :=
  match xs with
  | [] => ret tt
  | x :: xs' => body x ;; for_each xs' body
  end.

(** ** The command *)

(** The body of the loop from its second statement on, for the groups
    [(typ, addr, name)] of a matched line. *)
Definition handle_record (typ addr name : pystr) : M unit :=
  base <- gets start ;;
  offset <- expect ValueError (int16 addr) ;;
  let addr := base + offset in
  d <- (r <- ask (fun bv => DemangleMs (arch bv) name)
                 (fun bv => demangle_ms (arch bv) name) ;;
        expect DemangleError r) ;;
  let (mangle_typ, mangle_name) := d in
  let mangle_name :=
    match mangle_name with
    | Parts components => join (py "::") components
    | Flat s => s
    end in
  if str_eqb typ (py "F") then
    perform (CreateUserFunction addr) (create_user_function addr) ;;
    perform (DefineUserSymbol (mkSymbol FunctionSymbol addr mangle_name name))
            (define_user_symbol (mkSymbol FunctionSymbol addr mangle_name name)) ;;
    match mangle_typ with
    | Some t =>
        f <- (r <- ask (fun _ => GetFunctionAt addr) (get_function_at addr) ;;
              expect AttributeError r) ;;
        perform (SetFunctionType f t) (set_function_type f t)
    | None => ret tt
    end
  else if str_eqb typ (py "G") then
    perform (DefineUserSymbol (mkSymbol DataSymbol addr mangle_name name))
            (define_user_symbol (mkSymbol DataSymbol addr mangle_name name))
  else if str_eqb typ (py "S") then
    perform (SetCommentAt addr name) (set_comment_at addr name)
  else ret tt.

(** The body of the loop: [rex.match(line).groups()] is an
    [AttributeError] when there is no match. *)
Definition process_line (line : pystr) : M unit :=
  g <- expect AttributeError (rex_match line) ;;
  let '(typ, addr, name) := g in
  handle_record typ addr name.

(** What the file dialog answers to the plugin's prompt. *)
Definition dbg_file : option pystr :=
  get_open_filename_input
    (py "Debug file")
    (py "COFF Debug Files (" ++ py "*.dbg *.db_)").

(** [load_dbg_file(bv, function)]; the view is the state of the monad.
    [None] and the empty text are the falsy answers of the dialog. *)
Definition load_dbg_file (function : Z) : M unit :=
  match dbg_file with
  | Some (c :: path) =>
      output <- (r <- ask (fun _ => CheckOutput [py "dbgparse"; c :: path])
                          (fun _ => check_output [py "dbgparse"; c :: path]) ;;
                 expect SubprocessError r) ;;
      for_each (splitlines output) process_line
  | _ => ret tt
  end.

(** ** Reading a run *)

Definition view_of {A} (x : BinaryView * list call * outcome A) : BinaryView :=
  fst (fst x).
Definition calls_of {A} (x : BinaryView * list call * outcome A) : list call :=
  snd (fst x).
Definition result_of {A} (x : BinaryView * list call * outcome A) : outcome A :=
  snd x.

Definition is_create (c : call) : bool :=
  match c with CreateUserFunction _ => true | _ => false end.
Definition is_define (c : call) : bool :=
  match c with DefineUserSymbol _ => true | _ => false end.
Definition is_comment (c : call) : bool :=
  match c with SetCommentAt _ _ => true | _ => false end.
Definition is_demangle (c : call) : bool :=
  match c with DemangleMs _ _ => true | _ => false end.
Definition is_subprocess (c : call) : bool :=
  match c with CheckOutput _ => true | _ => false end.

(** The address a call of the view is made at. *)
Definition call_addr (c : call) : option Z :=
  match c with
  | CreateUserFunction a => Some a
  | DefineUserSymbol sym => Some (address sym)
  | GetFunctionAt a => Some a
  | SetCommentAt a _ => Some a
  | _ => None
  end.

(** The name a symbol is defined under, for what the demangler gave. *)
Definition display_name (d : demangled) : pystr :=
  match d with
  | Parts components => join (py "::") components
  | Flat s => s
  end.

(** The runs of [handle_record] spelled out, outcome by outcome, for
    the proofs to work on; [handle_record_run] below shows that they are
    the runs of the code. *)
Definition record_run (typ digits name : pystr) (bv : BinaryView)
  : BinaryView * list call * outcome unit :=
  let D := DemangleMs (arch bv) name in
  match demangle_ms (arch bv) name with
  | None => (bv, [D], Raise DemangleError)
  | Some (mt, mn) =>
      let a := start bv + hex_value digits in
      let nm := display_name mn in
      if str_eqb typ (py "F") then
        let sym := mkSymbol FunctionSymbol a nm name in
        let bv2 := define_user_symbol sym (create_user_function a bv) in
        let l := [D; CreateUserFunction a; DefineUserSymbol sym] in
        match mt with
        | None => (bv2, l, Ok tt)
        | Some t =>
            match get_function_at a bv2 with
            | Some f =>
                (set_function_type f t bv2,
                 l ++ [GetFunctionAt a; SetFunctionType f t], Ok tt)
            | None => (bv2, l ++ [GetFunctionAt a], Raise AttributeError)
            end
        end
      else if str_eqb typ (py "G") then
        let sym := mkSymbol DataSymbol a nm name in
        (define_user_symbol sym bv, [D; DefineUserSymbol sym], Ok tt)
      else if str_eqb typ (py "S") then
        (set_comment_at a name bv, [D; SetCommentAt a name], Ok tt)
      else (bv, [D], Ok tt)
  end.

End Plugin.

(** ** Record formats to compare with *)

(** A line of the shape [<tag> <address> <name>]: a tag among F, G and
    S, one space, eight characters of the class [digit], one space, and
    the rest. *)
Definition record_format (digit : char -> bool)
    (line tag digits name : pystr) : Prop :=
  line = tag ++ SP :: digits ++ SP :: name
  /\ (tag = py "F" \/ tag = py "G" \/ tag = py "S")
  /\ length digits = 8%nat
  /\ forallb digit digits = true.

(** A hexadecimal digit, in either case. *)
Definition is_hex_digit (c : char) : bool :=
  match hex_digit c with
  | Some _ => true
  | None => false
  end.

(** An upper-case hexadecimal digit, [A-F]. *)
Definition is_upper_hex (c : char) : bool :=
  N.leb (chr "A") c && N.leb c (chr "F").

(** The record format as the interface description words it, with
    "8 hexadecimal digits" for the address. *)
Definition spec_record_format : pystr -> pystr -> pystr -> pystr -> Prop :=
  record_format is_hex_digit.

(** ** A reference host

    A small host to run the command on: functions, symbols and comments
    are kept in lists; a function handle is its address and a type is
    its text.  Its demangler reads a name that starts with [?] as a
    function of the scope [ns], gives any other name back as it is, and
    fails on a name that starts with [!]. *)
Module RefHost.

Record view := mkView {
  base : Z;
  functions : list (Z * option pystr);
  symbols : list Symbol;
  comments : list (Z * pystr)
}.

Definition has_function (a : Z) (bv : view) : bool :=
  existsb (fun f => Z.eqb (fst f) a) (functions bv).

Definition create (a : Z) (bv : view) : view :=
  if has_function a bv then bv
  else mkView (base bv) ((a, None) :: functions bv) (symbols bv) (comments bv).

Definition define (sym : Symbol) (bv : view) : view :=
  mkView (base bv) (functions bv) (sym :: symbols bv) (comments bv).

Definition lookup (a : Z) (bv : view) : option Z :=
  if has_function a bv then Some a else None.

Definition set_type (f : Z) (t : pystr) (bv : view) : view :=
  mkView (base bv)
         (map (fun g => if Z.eqb (fst g) f then (f, Some t) else g) (functions bv))
         (symbols bv) (comments bv).

Definition comment (a : Z) (text : pystr) (bv : view) : view :=
  mkView (base bv) (functions bv) (symbols bv) ((a, text) :: comments bv).

Definition demangle (_ : unit) (name : pystr)
  : option (option pystr * demangled) :=
  match name with
  | c :: rest =>
      if N.eqb c (chr "?") then Some (Some (py "void (void)"), Parts [py "ns"; rest])
      else if N.eqb c (chr "!") then None
      else Some (None, Flat name)
  | [] => Some (None, Flat name)
  end.

(** The host, for an answer of the file dialog and a behaviour of the
    external tool. *)
Definition host (chosen : option pystr) (tool : list pystr -> option pystr)
  : Host :=
  {| BinaryView := view;
     Architecture := unit;
     FuncType := pystr;
     Function := Z;
     start := base;
     arch := fun _ => tt;
     create_user_function := create;
     define_user_symbol := define;
     get_function_at := lookup;
     set_function_type := set_type;
     set_comment_at := comment;
     demangle_ms := demangle;
     get_open_filename_input := fun _ _ => chosen;
     check_output := tool |}.

(** An empty view loaded at [0x400000]. *)
Definition empty : view := mkView 4194304 [] [] [].

(** What the tool prints in the sample runs: a function, a global, a
    source line, a line that is no record, and a source line whose name
    the demangler fails on. *)
Definition sample_output : pystr :=
  py "F 00001000 ?f" ++ [LF]
  ++ py "G 00002000 g" ++ [CR; LF]
  ++ py "S 0000000a main.c:3" ++ [LF]
  ++ py "bad" ++ [LF]
  ++ py "S 00000010 !x".

(** The user picks [game.dbg] and the tool prints [sample_output]. *)
Definition sample : Host :=
  host (Some (py "game.dbg")) (fun _ => Some sample_output).

(** The user cancels the dialog. *)
Definition cancelled : Host := host None (fun _ => None).

End RefHost.


(** ** Tags of lines and a run that completes *)

(** The line matches the pattern with [tag] as its first group. *)
Definition has_tag (tag : pystr) (line : pystr) : bool :=
  match rex_match line with
  | Some (typ, _, _) => str_eqb typ tag
  | None => false
  end.

(** How many of the lines have the tag. *)
Definition count_tag (tag : pystr) (lines : list pystr) : nat :=
  length (filter (has_tag tag) lines).

Module Complete.

(** Output of three records, each ended in its own way. *)
Definition output : pystr :=
  py "F 00001000 ?f" ++ [LF]
  ++ py "G 00002000 g" ++ [CR; LF]
  ++ py "S 0000000a main.c:3".

(** The user picks [game.dbg] and the tool prints [output]. *)
Definition host : Host :=
  RefHost.host (Some (py "game.dbg")) (fun _ => Some output).

(** The user picks [game.dbg] and the tool prints nothing. *)
Definition silent : Host :=
  RefHost.host (Some (py "game.dbg")) (fun _ => Some []).

(** A view that creates no function, as one does for an address it does
    not back; the rest is the reference host. *)
Definition unbacked : Host :=
  {| BinaryView := RefHost.view;
     Architecture := unit;
     FuncType := pystr;
     Function := Z;
     start := RefHost.base;
     arch := fun _ => tt;
     create_user_function := fun _ bv => bv;
     define_user_symbol := RefHost.define;
     get_function_at := RefHost.lookup;
     set_function_type := RefHost.set_type;
     set_comment_at := RefHost.comment;
     demangle_ms := RefHost.demangle;
     get_open_filename_input := fun _ _ => Some (py "game.dbg");
     check_output := fun _ => Some output |}.

End Complete.

(** * Properties *)

(** ** Texts *)

Lemma str_eqb_eq (s t : pystr) : str_eqb s t = true <-> s = t.
Proof.
  revert t; induction s as [|c s IH]; intros [|d t]; simpl;
    try (split; [discriminate | congruence]).
  - split; reflexivity.
  - rewrite andb_true_iff, N.eqb_eq, IH. split.
    + intros [-> ->]; reflexivity.
    + intros E; injection E; auto.
Qed.

(** A line that [splitlines] returns holds no line boundary. *)
Lemma splitlines_from_clean (s acc line : pystr) :
  forallb (fun c => negb (is_linebreak c)) acc = true ->
  In line (splitlines_from acc s) ->
  forallb (fun c => negb (is_linebreak c)) line = true.
Proof.
  assert (Hrev : forall a : pystr,
             forallb (fun c => negb (is_linebreak c)) a = true ->
             forallb (fun c => negb (is_linebreak c)) (rev a) = true).
  { intros a Ha. rewrite forallb_forall in *.
    intros x Hx. apply Ha. apply in_rev. exact Hx. }
  assert (Hnil : forallb (fun c => negb (is_linebreak c)) (@nil char) = true)
    by reflexivity.
  assert (Hlen : forall (n : nat) (s : pystr), (length s <= n)%nat ->
             forall acc line : pystr,
               forallb (fun c => negb (is_linebreak c)) acc = true ->
               In line (splitlines_from acc s) ->
               forallb (fun c => negb (is_linebreak c)) line = true).
  { clear s acc line.
    induction n as [|n IH]; intros s Hn acc line Hacc Hin.
    - destruct s as [|c s']; [|simpl in Hn; lia].
      simpl in Hin. destruct acc as [|a acc']; [contradiction|].
      destruct Hin as [<-|[]]. apply Hrev; exact Hacc.
    - destruct s as [|c s']; simpl in Hin.
      + destruct acc as [|a acc']; [contradiction|].
        destruct Hin as [<-|[]]. apply Hrev; exact Hacc.
      + simpl in Hn. destruct (N.eqb c CR).
        * destruct s' as [|d s''].
          -- destruct Hin as [<-|Hin]; [apply Hrev; exact Hacc|].
             simpl in Hin; contradiction.
          -- simpl in Hn.
             destruct (N.eqb d LF);
               (destruct Hin as [<-|Hin]; [apply Hrev; exact Hacc|]).
             ++ apply (IH s'') with (acc := []); simpl; auto; lia.
             ++ apply (IH (d :: s'')) with (acc := []); simpl; auto; lia.
        * destruct (is_linebreak c) eqn:Hc.
          -- destruct Hin as [<-|Hin]; [apply Hrev; exact Hacc|].
             apply (IH s') with (acc := []); simpl; auto; lia.
          -- apply (IH s') with (acc := c :: acc); simpl; auto; try lia.
             rewrite Hc; simpl; exact Hacc. }
  apply (Hlen (length s) s). lia.
Qed.

Lemma splitlines_clean (output line : pystr) :
  In line (splitlines output) ->
  forallb (fun c => negb (is_linebreak c)) line = true.
Proof. apply splitlines_from_clean; reflexivity. Qed.

(** CR LF is one boundary, an empty line between two boundaries is
    kept, and no empty line follows the last boundary. *)
Example splitlines_boundaries :
  splitlines (py "ab" ++ [LF] ++ py "c" ++ [CR; LF] ++ [LF] ++ py "d" ++ [CR])
  = [py "ab"; py "c"; []; py "d"].
Proof. reflexivity. Qed.

Example join_scopes :
  join (py "::") [py "std"; py "vector"; py "size"] = py "std::vector::size".
Proof. reflexivity. Qed.

Lemma clean_dot (s : pystr) :
  forallb (fun c => negb (is_linebreak c)) s = true ->
  forallb class_dot s = true.
Proof.
  rewrite !forallb_forall. intros Hs c Hc. specialize (Hs c Hc).
  unfold class_dot. destruct (N.eqb_spec c LF) as [->|]; [|reflexivity].
  discriminate Hs.
Qed.

(** ** The pattern *)

Lemma exactly_inv (p : char -> bool) (n : nat) (s m r : pystr) :
  exactly n p s = Some (m, r) ->
  s = m ++ r /\ length m = n /\ forallb p m = true.
Proof.
  revert s m r; induction n as [|n IH]; intros s m r; simpl.
  - intros E; injection E as <- <-. auto.
  - destruct s as [|c s']; [discriminate|].
    destruct (p c) eqn:Hc; [|discriminate].
    destruct (exactly n p s') as [[m' r']|] eqn:E'; [|discriminate].
    intros E; injection E as <- <-.
    destruct (IH _ _ _ E') as (-> & <- & Hm).
    simpl. rewrite Hc, Hm. auto.
Qed.

Lemma exactly_intro (p : char -> bool) (m r : pystr) :
  forallb p m = true -> exactly (length m) p (m ++ r) = Some (m, r).
Proof.
  induction m as [|c m IH]; simpl; [reflexivity|].
  rewrite andb_true_iff. intros [-> Hm]. rewrite (IH Hm). reflexivity.
Qed.

Lemma many_inv (p : char -> bool) (s m r : pystr) :
  many p s = (m, r) ->
  s = m ++ r /\ forallb p m = true /\
  match r with [] => True | c :: _ => p c = false end.
Proof.
  revert m r; induction s as [|c s IH]; intros m r; simpl.
  - intros E; injection E as <- <-. auto.
  - destruct (p c) eqn:Hc.
    + destruct (many p s) as [m' r'] eqn:E'.
      intros E; injection E as <- <-.
      destruct (IH _ _ eq_refl) as (-> & Hm & Hr).
      simpl. rewrite Hc, Hm. auto.
    + intros E; injection E as <- <-. simpl. auto.
Qed.

Lemma many_all (p : char -> bool) (m : pystr) :
  forallb p m = true -> many p m = (m, []).
Proof.
  induction m as [|c m IH]; simpl; [reflexivity|].
  rewrite andb_true_iff. intros [-> Hm]. rewrite (IH Hm). reflexivity.
Qed.

Lemma class_FGS_inv (c : char) :
  class_FGS c = true -> [c] = py "F" \/ [c] = py "G" \/ [c] = py "S".
Proof.
  unfold class_FGS. rewrite !orb_true_iff, !N.eqb_eq.
  intros [[->| ->]| ->]; auto.
Qed.

(** What a match says about the line and its groups. *)
Lemma rex_match_inv (line typ digits name : pystr) :
  rex_match line = Some (typ, digits, name) ->
  (typ = py "F" \/ typ = py "G" \/ typ = py "S")
  /\ length digits = 8%nat
  /\ forallb class_hex digits = true
  /\ forallb class_dot name = true
  /\ (line = typ ++ SP :: digits ++ SP :: name
      \/ line = typ ++ SP :: digits ++ SP :: name ++ [LF]).
Proof.
  unfold rex_match, one.
  destruct line as [|t r1]; [discriminate|].
  destruct (class_FGS t) eqn:Ht; [|discriminate].
  destruct r1 as [|s1 r2]; [discriminate|].
  destruct (N.eqb_spec SP s1) as [<-|]; [|discriminate].
  destruct (exactly 8 class_hex r2) as [[addr r3]|] eqn:E; [|discriminate].
  destruct r3 as [|s2 r4]; [discriminate|].
  destruct (N.eqb_spec SP s2) as [<-|]; [|discriminate].
  destruct (many class_dot r4) as [nm r5] eqn:E'.
  destruct (at_end r5) eqn:Hend; [|discriminate].
  intros X; injection X as <- <- <-.
  destruct (exactly_inv _ _ _ E) as (-> & Hlen & Hhex).
  destruct (many_inv _ _ E') as (-> & Hdot & _).
  repeat split; auto using class_FGS_inv.
  destruct r5 as [|c [|c' r6]]; simpl in Hend; try discriminate.
  - left. rewrite app_nil_r. reflexivity.
  - right. apply N.eqb_eq in Hend; subst c. reflexivity.
Qed.

(** A line of the format, with digits of the pattern's class and a name
    without line feed, matches, with its fields as the groups. *)
Lemma rex_match_intro (line typ digits name : pystr) :
  record_format class_hex line typ digits name ->
  forallb class_dot name = true ->
  rex_match line = Some (typ, digits, name).
Proof.
  intros (-> & Htyp & Hlen & Hhex) Hdot.
  assert (Ht : exists t, typ = [t] /\ class_FGS t = true).
  { destruct Htyp as [->|[->| ->]]; eexists; split; reflexivity. }
  destruct Ht as (t & -> & Ht).
  change ([t] ++ SP :: digits ++ SP :: name)
    with (t :: SP :: (digits ++ SP :: name)).
  unfold rex_match, one. rewrite Ht, N.eqb_refl.
  rewrite <- Hlen, exactly_intro by exact Hhex.
  rewrite N.eqb_refl, many_all by exact Hdot. reflexivity.
Qed.

(** Eight characters that are not all of the class stop the match. *)
Lemma exactly_fail (p : char -> bool) (m r : pystr) :
  forallb p m = false -> exactly (length m) p (m ++ r) = None.
Proof.
  induction m as [|c m IH]; simpl; [discriminate|].
  destruct (p c); [|reflexivity].
  simpl. intros Hm. rewrite (IH Hm). reflexivity.
Qed.

(** An upper-case digit is outside the class of the pattern. *)
Lemma upper_hex_not_class (digits : pystr) :
  existsb is_upper_hex digits = true -> forallb class_hex digits = false.
Proof.
  intros Hup. apply existsb_exists in Hup. destruct Hup as (c & Hin & Hc).
  destruct (forallb class_hex digits) eqn:E; [|reflexivity].
  rewrite forallb_forall in E. specialize (E c Hin).
  revert Hc E. unfold is_upper_hex, class_hex.
  change (chr "0") with 48%N; change (chr "9") with 57%N;
    change (chr "a") with 97%N; change (chr "f") with 102%N;
    change (chr "A") with 65%N; change (chr "F") with 70%N.
  repeat match goal with
         | |- context [N.leb ?x ?y] => destruct (N.leb_spec x y)
         end; simpl; intros; try discriminate; lia.
Qed.

(** Hexadecimal digits are all of the pattern's class, or one of them
    is in upper case. *)
Lemma hex_digits_cases (digits : pystr) :
  forallb is_hex_digit digits = true ->
  forallb class_hex digits = true \/ existsb is_upper_hex digits = true.
Proof.
  induction digits as [|c digits IH]; simpl; [auto|].
  rewrite andb_true_iff. intros [Hc Hd].
  assert (Hcase : class_hex c = true \/ is_upper_hex c = true).
  { revert Hc. unfold is_hex_digit, hex_digit, class_hex, is_upper_hex.
    destruct (N.leb (chr "0") c && N.leb c (chr "9")); [auto|].
    destruct (N.leb (chr "a") c && N.leb c (chr "f")); [auto|].
    destruct (N.leb (chr "A") c && N.leb c (chr "F")); [auto|].
    discriminate. }
  destruct Hcase as [-> | ->]; [|right; reflexivity].
  destruct (IH Hd) as [-> | ->]; [left; reflexivity|].
  right. apply orb_true_r.
Qed.

(** A line of the format whose address is not all of the pattern's
    class does not match. *)
Lemma rex_match_bad_digits (digit : char -> bool)
    (line tag digits name : pystr) :
  record_format digit line tag digits name ->
  forallb class_hex digits = false ->
  rex_match line = None.
Proof.
  intros (-> & Htag & Hlen & _) Hbad.
  assert (Ht : exists t, tag = [t] /\ class_FGS t = true).
  { destruct Htag as [->|[->| ->]]; eexists; split; reflexivity. }
  destruct Ht as (t & -> & Ht).
  change ([t] ++ SP :: digits ++ SP :: name)
    with (t :: SP :: (digits ++ SP :: name)).
  unfold rex_match, one. rewrite Ht, N.eqb_refl.
  rewrite <- Hlen, exactly_fail by exact Hbad. reflexivity.
Qed.

(** The pattern on a few lines: the anchor [$] lets one final line feed
    pass and leaves it out of the name, a line feed inside the text
    stops the match, the name may be empty, and the tag, the length of
    the address and the case of its digits are checked. *)
Example rex_match_final_newline :
  rex_match (py "S 00000000 x" ++ [LF]) = Some (py "S", py "00000000", py "x").
Proof. reflexivity. Qed.

Example rex_match_inner_newline :
  rex_match (py "S 00000000 x" ++ [LF] ++ py "y") = None.
Proof. reflexivity. Qed.

Example rex_match_empty_name :
  rex_match (py "G 0000beef ") = Some (py "G", py "0000beef", []).
Proof. reflexivity. Qed.

Example rex_match_other_tag : rex_match (py "X 00000000 x") = None.
Proof. reflexivity. Qed.

Example rex_match_short_address : rex_match (py "F 0000000 x") = None.
Proof. reflexivity. Qed.

(** ** Hexadecimal *)

Lemma hex_digit_range (c : char) (d : Z) :
  hex_digit c = Some d -> 0 <= d < 16.
Proof.
  unfold hex_digit.
  change (chr "0") with 48%N; change (chr "9") with 57%N;
    change (chr "a") with 97%N; change (chr "f") with 102%N;
    change (chr "A") with 65%N; change (chr "F") with 70%N.
  repeat match goal with
         | |- context [N.leb ?x ?y] => destruct (N.leb_spec x y)
         end; simpl; intros X; try discriminate; injection X as <-; lia.
Qed.

Lemma class_hex_digit (c : char) : class_hex c = true -> is_hex_digit c = true.
Proof.
  unfold class_hex, is_hex_digit, hex_digit.
  destruct (N.leb (chr "0") c && N.leb c (chr "9")); [reflexivity|].
  destruct (N.leb (chr "a") c && N.leb c (chr "f")); [reflexivity|].
  discriminate.
Qed.

Lemma hex_value_range (s : pystr) :
  0 <= hex_value s < 16 ^ Z.of_nat (length s).
Proof.
  induction s as [|c s IH]; [simpl; lia|].
  change (length (c :: s)) with (S (length s)).
  rewrite Nat2Z.inj_succ, Z.pow_succ_r by lia.
  simpl hex_value.
  assert (0 <= digit_value c < 16).
  { unfold digit_value. destruct (hex_digit c) eqn:E; [|lia].
    eapply hex_digit_range; eauto. }
  nia.
Qed.

Lemma int16_from_value (s : pystr) (acc : Z) :
  forallb is_hex_digit s = true ->
  int16_from acc s = Some (acc * 16 ^ Z.of_nat (length s) + hex_value s).
Proof.
  revert acc; induction s as [|c s IH]; intros acc.
  - intros _. simpl. f_equal. lia.
  - intros Hs. apply andb_true_iff in Hs. destruct Hs as [Hc Hs].
    change (length (c :: s)) with (S (length s)).
    rewrite Nat2Z.inj_succ, Z.pow_succ_r by lia.
    cbn [int16_from hex_value]. unfold is_hex_digit in Hc. unfold digit_value.
    destruct (hex_digit c) as [d|]; [|discriminate].
    rewrite (IH _ Hs). f_equal. ring.
Qed.

(** [int(_, 16)] on the second group of a match: the positional value,
    below [16^8]. *)
Lemma int16_group (digits : pystr) :
  length digits = 8%nat ->
  forallb class_hex digits = true ->
  int16 digits = Some (hex_value digits) /\ 0 <= hex_value digits < 2 ^ 32.
Proof.
  intros Hlen Hhex. split.
  - unfold int16. destruct digits as [|c s]; [discriminate|].
    rewrite int16_from_value.
    + f_equal.
    + rewrite forallb_forall in *. auto using class_hex_digit.
  - pose proof (hex_value_range digits) as R. rewrite Hlen in R.
    change (16 ^ Z.of_nat 8) with (2 ^ 32) in R. exact R.
Qed.

(** ** Runs of the command *)

Section Runs.
Context {H : Host}.

Lemma process_line_matched (line typ digits name : pystr) (bv : BinaryView) :
  rex_match line = Some (typ, digits, name) ->
  process_line line bv = handle_record typ digits name bv.
Proof.
  intros E. unfold process_line, bind, expect, ret. rewrite E.
  destruct (handle_record typ digits name bv) as [[bv' l] r]. reflexivity.
Qed.

Lemma process_line_unmatched (line : pystr) (bv : BinaryView) :
  rex_match line = None ->
  process_line line bv = (bv, [], Raise AttributeError).
Proof.
  intros E. unfold process_line, bind, expect, raise. rewrite E. reflexivity.
Qed.

Lemma handle_record_run (typ digits name : pystr) (bv : BinaryView) :
  int16 digits = Some (hex_value digits) ->
  handle_record typ digits name bv = record_run typ digits name bv.
Proof.
  intros E.
  unfold handle_record, record_run, bind, gets, expect, ask, perform, ret, raise.
  rewrite E. cbn [app].
  destruct (demangle_ms (arch bv) name) as [[mt mn]|]; [|reflexivity].
  cbn [app]. fold (display_name mn).
  destruct (str_eqb typ (py "F")).
  - destruct mt as [t|]; [|reflexivity].
    cbn [app].
    destruct (get_function_at _ _) as [f|]; reflexivity.
  - destruct (str_eqb typ (py "G")); [reflexivity|].
    destruct (str_eqb typ (py "S")); reflexivity.
Qed.

(** A matched line runs as [record_run] says. *)
Lemma process_line_run (line typ digits name : pystr) (bv : BinaryView) :
  rex_match line = Some (typ, digits, name) ->
  process_line line bv = record_run typ digits name bv.
Proof.
  intros E. rewrite (process_line_matched _ _ E).
  destruct (rex_match_inv _ E) as (_ & Hlen & Hhex & _).
  apply handle_record_run. apply int16_group; assumption.
Qed.

(** The loop over two stretches of lines. *)
Lemma for_each_app {A} (body : A -> M unit) (pre post : list A) (bv : BinaryView) :
  for_each (pre ++ post) body bv =
  match for_each pre body bv with
  | (bv1, l1, Ok _) =>
      match for_each post body bv1 with
      | (bv2, l2, r) => (bv2, l1 ++ l2, r)
      end
  | (bv1, l1, Raise e) => (bv1, l1, Raise e)
  end.
Proof.
  revert bv; induction pre as [|x pre IH]; intros bv.
  - simpl. unfold ret. destruct (for_each post body bv) as [[bv2 l2] r].
    reflexivity.
  - simpl. unfold bind.
    destruct (body x bv) as [[bv1 l1] [[]|e]]; [|reflexivity].
    rewrite IH.
    destruct (for_each pre body bv1) as [[bv2 l2] [[]|e]]; [|reflexivity].
    destruct (for_each post body bv2) as [[bv3 l3] r].
    rewrite app_assoc. reflexivity.
Qed.

(** The loop stops at the line whose body raises. *)
Lemma for_each_raise {A} (body : A -> M unit) (pre post : list A) (x : A)
    (bv0 bv1 bv2 : BinaryView) (l1 l2 : list call) (e : exn) :
  for_each pre body bv0 = (bv1, l1, Ok tt) ->
  body x bv1 = (bv2, l2, Raise e) ->
  for_each (pre ++ x :: post) body bv0 = (bv2, l1 ++ l2, Raise e).
Proof.
  intros Hpre Hx. rewrite for_each_app, Hpre. simpl. unfold bind.
  rewrite Hx. reflexivity.
Qed.

End Runs.

(** ** The lines of the tool's output, tag by tag *)

Section Claims.
Context {H : Host}.

(** C1. A line whose tag field is "F", for whose name the demangler
    answers, makes exactly one function-creation call and exactly one
    symbol-definition call, of a [FunctionSymbol], and both are made at
    the start of the view plus the value of the hexadecimal field. *)
Theorem C1_function_line
    (line digits name : pystr) (bv : BinaryView)
    (mt : option FuncType) (mn : demangled) :
  rex_match line = Some (py "F", digits, name) ->
  demangle_ms (arch bv) name = Some (mt, mn) ->
  let a := start bv + hex_value digits in
  int16 digits = Some (hex_value digits)
  /\ filter is_create (calls_of (process_line line bv))
     = [CreateUserFunction a]
  /\ filter is_define (calls_of (process_line line bv))
     = [DefineUserSymbol (mkSymbol FunctionSymbol a (display_name mn) name)].
Proof.
  intros E D a.
  destruct (rex_match_inv _ E) as (_ & Hlen & Hhex & _).
  split; [apply int16_group; assumption|].
  rewrite (process_line_run _ _ E). unfold record_run. rewrite D.
  cbn [str_eqb py map list_ascii_of_string chr N_of_ascii N.eqb Pos.eqb andb].
  fold a.
  destruct mt as [t|]; [destruct (get_function_at _ _) as [f|]|];
    split; reflexivity.
Qed.

(** C2. A line whose tag field is "G", for whose name the demangler
    answers, makes exactly one symbol-definition call, of a
    [DataSymbol], and creates no function: the view it leaves is the one
    that definition gives. *)
Theorem C2_global_line
    (line digits name : pystr) (bv : BinaryView)
    (mt : option FuncType) (mn : demangled) :
  rex_match line = Some (py "G", digits, name) ->
  demangle_ms (arch bv) name = Some (mt, mn) ->
  let sym :=
    mkSymbol DataSymbol (start bv + hex_value digits) (display_name mn) name in
  filter is_define (calls_of (process_line line bv)) = [DefineUserSymbol sym]
  /\ sym_type sym = DataSymbol
  /\ filter is_create (calls_of (process_line line bv)) = []
  /\ view_of (process_line line bv) = define_user_symbol sym bv
  /\ result_of (process_line line bv) = Ok tt.
Proof.
  intros E D sym.
  rewrite (process_line_run _ _ E). unfold record_run. rewrite D.
  cbn [str_eqb py map list_ascii_of_string chr N_of_ascii N.eqb Pos.eqb andb].
  fold sym. repeat split.
Qed.

(** C3. A line of the output whose tag field is "S", for whose name the
    demangler answers, makes exactly one comment-set call, at the start
    of the view plus the value of the hexadecimal field; the comment is
    the third group, which is the text of the line after the second
    space, whatever the demangler made of it. *)
Theorem C3_source_line
    (output line digits name : pystr) (bv : BinaryView)
    (mt : option FuncType) (mn : demangled) :
  In line (splitlines output) ->
  rex_match line = Some (py "S", digits, name) ->
  demangle_ms (arch bv) name = Some (mt, mn) ->
  let a := start bv + hex_value digits in
  line = py "S" ++ SP :: digits ++ SP :: name
  /\ filter is_comment (calls_of (process_line line bv)) = [SetCommentAt a name]
  /\ view_of (process_line line bv) = set_comment_at a name bv
  /\ result_of (process_line line bv) = Ok tt.
Proof.
  intros Hin E D a. split.
  - destruct (rex_match_inv _ E) as (_ & _ & _ & _ & [L|L]); [exact L|].
    exfalso. pose proof (splitlines_clean _ _ Hin) as C.
    rewrite forallb_forall in C.
    assert (X : negb (is_linebreak LF) = true); [|discriminate X].
    apply C. rewrite L. apply in_or_app. right. right.
    apply in_or_app. right. right. apply in_or_app. right. left. reflexivity.
  - rewrite (process_line_run _ _ E). unfold record_run. rewrite D.
    cbn [str_eqb py map list_ascii_of_string chr N_of_ascii N.eqb Pos.eqb andb].
    fold a. repeat split.
Qed.

(** C4. On a matching line, every call of the view that takes an
    address takes the start of the view plus the value of the eight
    digits read in base 16; that value is what [int(_, 16)] returns, it
    lies in [0, 2^32), and the sum is a sum of integers, never reduced. *)
Theorem C4_address
    (line typ digits name : pystr) (bv : BinaryView) :
  rex_match line = Some (typ, digits, name) ->
  int16 digits = Some (hex_value digits)
  /\ 0 <= hex_value digits < 2 ^ 32
  /\ forall (c : call) (a : Z),
       In c (calls_of (process_line line bv)) ->
       call_addr c = Some a ->
       a = start bv + hex_value digits.
Proof.
  intros E.
  destruct (rex_match_inv _ E) as (_ & Hlen & Hhex & _).
  destruct (int16_group _ Hlen Hhex) as [Hint Hrange].
  repeat split; try assumption; try apply Hrange.
  intros c a. rewrite (process_line_run _ _ E). unfold record_run.
  destruct (demangle_ms (arch bv) name) as [[mt mn]|].
  - destruct (str_eqb typ (py "F"));
      [destruct mt as [t|]; [destruct (get_function_at _ _) as [f|]|]
      |destruct (str_eqb typ (py "G")); [|destruct (str_eqb typ (py "S"))]];
      simpl;
      intros Hc Ha;
      repeat (destruct Hc as [<-|Hc]; [simpl in Ha; congruence|]);
      contradiction.
  - simpl. intros [<-|[]]. discriminate.
Qed.

(** C5. On a matching line for whose name the demangler answers, a
    symbol is defined under the components joined with "::" when the
    answer is a list of components, and under the name as it came when
    the answer is a flat name.  Lines with the tags "F" and "G" define
    such a symbol. *)
Theorem C5_joined_name
    (line typ digits name : pystr) (bv : BinaryView)
    (mt : option FuncType) (mn : demangled) :
  rex_match line = Some (typ, digits, name) ->
  demangle_ms (arch bv) name = Some (mt, mn) ->
  (forall sym : Symbol,
      In (DefineUserSymbol sym) (calls_of (process_line line bv)) ->
      short_name sym =
      match mn with
      | Parts components => join (py "::") components
      | Flat flat => flat
      end)
  /\ (typ <> py "S" ->
      exists sym : Symbol,
        filter is_define (calls_of (process_line line bv))
        = [DefineUserSymbol sym]).
Proof.
  intros E D.
  destruct (rex_match_inv _ E) as (Htyp & _).
  rewrite (process_line_run _ _ E). unfold record_run. rewrite D.
  fold (display_name mn).
  destruct Htyp as [->|[->| ->]];
    cbn [str_eqb py map list_ascii_of_string chr N_of_ascii N.eqb Pos.eqb andb].
  - split.
    + intros sym.
      destruct mt as [t|]; [destruct (get_function_at _ _) as [f|]|];
        simpl; intros Hin;
        repeat (destruct Hin as [X|Hin];
                [try discriminate X; injection X as <-; reflexivity|]);
        contradiction.
    + intros _.
      destruct mt as [t|]; [destruct (get_function_at _ _) as [f|]|];
        eexists; reflexivity.
  - split.
    + intros sym. simpl. intros Hin.
      repeat (destruct Hin as [X|Hin];
              [try discriminate X; injection X as <-; reflexivity|]);
        contradiction.
    + intros _. eexists; reflexivity.
  - split.
    + intros sym. simpl. intros Hin.
      repeat (destruct Hin as [X|Hin]; [discriminate X|]); contradiction.
    + intros N. contradiction N. reflexivity.
Qed.

(** C6, amended.  Take a line of the output of the shape
    [<tag> <address> <name>], with a tag among F, G and S and an address
    of eight hexadecimal digits.  When the digits are all among [0-9]
    and lower-case [a-f], the line matches: its three fields are the
    groups, no other reading of the line has the shape, and the line is
    handed on with them, the address read in base 16 and the loop body
    run on the triple.  When a digit is in upper case, [A-F], the line
    does not match and processing it raises with no call made.  One of
    the two is the case. *)
Theorem C6_matching_line
    (output line tag digits name : pystr) :
  In line (splitlines output) ->
  spec_record_format line tag digits name ->
  (forallb class_hex digits = true ->
   rex_match line = Some (tag, digits, name)
   /\ (forall tag' digits' name' : pystr,
         record_format class_hex line tag' digits' name' ->
         (tag', digits', name') = (tag, digits, name))
   /\ int16 digits = Some (hex_value digits)
   /\ (forall bv : BinaryView,
         process_line line bv = handle_record tag digits name bv))
  /\ (existsb is_upper_hex digits = true ->
      rex_match line = None
      /\ (forall bv : BinaryView,
            process_line line bv = (bv, [], Raise AttributeError)))
  /\ (forallb class_hex digits = true \/ existsb is_upper_hex digits = true).
Proof.
  intros Hin Hfmt. split; [|split].
  - intros Hlow.
    assert (F : record_format class_hex line tag digits name).
    { destruct Hfmt as (L & Htag & Hlen & _). repeat split; assumption. }
    assert (Hdot : forall t d n : pystr,
               record_format class_hex line t d n ->
               forallb class_dot n = true).
    { intros t d n (L & _). apply clean_dot.
      pose proof (splitlines_clean _ _ Hin) as C.
      rewrite forallb_forall in *. intros x Hx. apply C. rewrite L.
      apply in_or_app. right. right. apply in_or_app. right. right.
      exact Hx. }
    assert (E : rex_match line = Some (tag, digits, name))
      by (apply rex_match_intro; eauto).
    split; [exact E|]. split; [|split].
    + intros t d n F'.
      assert (E' : rex_match line = Some (t, d, n))
        by (apply rex_match_intro; eauto).
      congruence.
    + destruct F as (_ & _ & Hlen & Hhex). apply int16_group; assumption.
    + intros bv. apply process_line_matched. exact E.
  - intros Hup.
    assert (E : rex_match line = None).
    { apply (rex_match_bad_digits Hfmt). apply upper_hex_not_class.
      exact Hup. }
    split; [exact E|].
    intros bv. apply process_line_unmatched. exact E.
  - destruct Hfmt as (_ & _ & _ & Hhex). apply hex_digits_cases. exact Hhex.
Qed.

(** C7. When a line of the output does not match, the command ends in
    an exception: the line itself makes no call and leaves the view as
    it was, and the run of the command is the run of the lines before it
    followed by the raise, so that no later line is looked at. *)
Theorem C7_unmatched_line_aborts
    (function : Z) (c : char) (path output line : pystr)
    (pre post : list pystr) (bv : BinaryView) :
  dbg_file = Some (c :: path) ->
  check_output [py "dbgparse"; c :: path] = Some output ->
  splitlines output = pre ++ line :: post ->
  rex_match line = None ->
  (forall bv1 : BinaryView,
      process_line line bv1 = (bv1, [], Raise AttributeError))
  /\ load_dbg_file function bv =
     match for_each pre process_line bv with
     | (bv1, l1, Ok _) =>
         (bv1, CheckOutput [py "dbgparse"; c :: path] :: l1,
          Raise AttributeError)
     | (bv1, l1, Raise e) =>
         (bv1, CheckOutput [py "dbgparse"; c :: path] :: l1, Raise e)
     end
  /\ exists e : exn, result_of (load_dbg_file function bv) = Raise e.
Proof.
  intros Hfile Hout Hlines E.
  assert (Hline : forall bv1 : BinaryView,
             process_line line bv1 = (bv1, [], Raise AttributeError))
    by (intros; apply process_line_unmatched; exact E).
  assert (Hrun : load_dbg_file function bv =
                 match for_each pre process_line bv with
                 | (bv1, l1, Ok _) =>
                     (bv1, CheckOutput [py "dbgparse"; c :: path] :: l1,
                      Raise AttributeError)
                 | (bv1, l1, Raise e) =>
                     (bv1, CheckOutput [py "dbgparse"; c :: path] :: l1, Raise e)
                 end).
  { unfold load_dbg_file. rewrite Hfile.
    unfold bind, ask, expect, ret. rewrite Hout, Hlines. cbn [app].
    rewrite for_each_app.
    destruct (for_each pre process_line bv) as [[bv1 l1] [[]|e]];
      [|reflexivity].
    simpl. unfold bind. rewrite Hline, app_nil_r. reflexivity. }
  split; [exact Hline|]. split; [exact Hrun|].
  rewrite Hrun.
  destruct (for_each pre process_line bv) as [[bv1 l1] [[]|e]];
    eexists; reflexivity.
Qed.

(** C8. When the file dialog gives no file, [None] for a cancelled
    dialog or an empty name, the command returns at once: it makes no
    call, so runs no subprocess, and leaves the view as it was. *)
Theorem C8_no_file_no_processing (function : Z) (bv : BinaryView) :
  dbg_file = None \/ dbg_file = Some [] ->
  load_dbg_file function bv = (bv, [], Ok tt)
  /\ filter is_subprocess (calls_of (load_dbg_file function bv)) = []
  /\ view_of (load_dbg_file function bv) = bv.
Proof.
  intros Hfile.
  assert (E : load_dbg_file function bv = (bv, [], Ok tt)).
  { unfold load_dbg_file. destruct Hfile as [-> | ->]; reflexivity. }
  rewrite E. repeat split.
Qed.

(** C9, amended.  On a line whose tag field is "F", for whose name
    the demangler answers, the function is created and the symbol
    defined first.  With
    no type descriptor the body ends there, no type is set and the view
    is the one those two calls give.  With a descriptor, the function
    found at the address gets that type.  A type is set only when there
    is a descriptor. *)
Theorem C9_function_type
    (line digits name : pystr) (bv : BinaryView)
    (mt : option FuncType) (mn : demangled) :
  rex_match line = Some (py "F", digits, name) ->
  demangle_ms (arch bv) name = Some (mt, mn) ->
  let a := start bv + hex_value digits in
  let sym := mkSymbol FunctionSymbol a (display_name mn) name in
  let bv2 := define_user_symbol sym (create_user_function a bv) in
  let made := [DemangleMs (arch bv) name; CreateUserFunction a;
               DefineUserSymbol sym] in
  (exists rest : list call,
      calls_of (process_line line bv) = made ++ rest)
  /\ (mt = None -> process_line line bv = (bv2, made, Ok tt))
  /\ (forall (t : FuncType) (f : Function),
        mt = Some t ->
        get_function_at a bv2 = Some f ->
        process_line line bv =
        (set_function_type f t bv2,
         made ++ [GetFunctionAt a; SetFunctionType f t], Ok tt))
  /\ ((exists (f : Function) (t : FuncType),
         In (SetFunctionType f t) (calls_of (process_line line bv))) ->
      mt <> None).
Proof.
  intros E D a sym bv2 made.
  rewrite (process_line_run _ _ E). unfold record_run. rewrite D.
  cbn [str_eqb py map list_ascii_of_string chr N_of_ascii N.eqb Pos.eqb andb].
  fold a. fold sym. fold bv2. fold made.
  split; [|split; [|split]].
  - destruct mt as [t|]; [destruct (get_function_at a bv2) as [f|]|];
      eexists; reflexivity.
  - intros ->. reflexivity.
  - intros t f -> ->. reflexivity.
  - intros (f & t & Hin) ->. simpl in Hin.
    repeat (destruct Hin as [X|Hin]; [discriminate X|]). contradiction.
Qed.

(** C10. On every matching line, whatever its tag, the first call is
    to the demangler, on the name field, and it is the line's only call
    to it.  When the demangler fails, the line ends in an exception
    after that call with the view as it was, and the loop ends with it,
    with no later line looked at; this holds for "S" lines as for the
    others. *)
Theorem C10_demangle_every_line
    (line typ digits name : pystr) (bv : BinaryView) :
  rex_match line = Some (typ, digits, name) ->
  (exists rest : list call,
      calls_of (process_line line bv) = DemangleMs (arch bv) name :: rest)
  /\ filter is_demangle (calls_of (process_line line bv))
     = [DemangleMs (arch bv) name]
  /\ (demangle_ms (arch bv) name = None ->
      process_line line bv =
      (bv, [DemangleMs (arch bv) name], Raise DemangleError)
      /\ forall (pre post : list pystr) (bv0 : BinaryView) (l : list call),
           for_each pre process_line bv0 = (bv, l, Ok tt) ->
           for_each (pre ++ line :: post) process_line bv0 =
           (bv, l ++ [DemangleMs (arch bv) name], Raise DemangleError)).
Proof.
  intros E. split; [|split].
  - rewrite (process_line_run _ _ E). unfold record_run.
    destruct (demangle_ms (arch bv) name) as [[mt mn]|];
      [|eexists; reflexivity].
    destruct (str_eqb typ (py "F"));
      [destruct mt as [t|]; [destruct (get_function_at _ _) as [f|]|]
      |destruct (str_eqb typ (py "G")); [|destruct (str_eqb typ (py "S"))]];
      eexists; reflexivity.
  - rewrite (process_line_run _ _ E). unfold record_run.
    destruct (demangle_ms (arch bv) name) as [[mt mn]|]; [|reflexivity].
    destruct (str_eqb typ (py "F"));
      [destruct mt as [t|]; [destruct (get_function_at _ _) as [f|]|]
      |destruct (str_eqb typ (py "G")); [|destruct (str_eqb typ (py "S"))]];
      reflexivity.
  - intros D.
    assert (L : process_line line bv =
                (bv, [DemangleMs (arch bv) name], Raise DemangleError)).
    { rewrite (process_line_run _ _ E). unfold record_run. rewrite D.
      reflexivity. }
    split; [exact L|].
    intros pre post bv0 l Hpre.
    apply for_each_raise with (bv1 := bv); assumption.
Qed.

End Claims.

(** ** The claims on the sample runs *)

Lemma C1_function_line_witness :
  rex_match (py "F 00001000 ?f") = Some (py "F", py "00001000", py "?f")
  /\ demangle_ms (Host := RefHost.sample) tt (py "?f")
     = Some (Some (py "void (void)"), Parts [py "ns"; py "f"])
  /\ int16 (py "00001000") = Some 4096
  /\ filter is_create
       (calls_of (process_line (H := RefHost.sample)
                    (py "F 00001000 ?f") RefHost.empty))
     = [CreateUserFunction 4198400]
  /\ filter is_define
       (calls_of (process_line (H := RefHost.sample)
                    (py "F 00001000 ?f") RefHost.empty))
     = [DefineUserSymbol
          (mkSymbol FunctionSymbol 4198400 (py "ns::f") (py "?f"))].
Proof.
  split; [reflexivity|]. split; [reflexivity|].
  exact (C1_function_line (H := RefHost.sample)
           (py "F 00001000 ?f") RefHost.empty eq_refl eq_refl).
Defined.

Lemma C2_global_line_witness :
  rex_match (py "G 00002000 g") = Some (py "G", py "00002000", py "g")
  /\ demangle_ms (Host := RefHost.sample) tt (py "g") = Some (None, Flat (py "g"))
  /\ filter is_define
       (calls_of (process_line (H := RefHost.sample)
                    (py "G 00002000 g") RefHost.empty))
     = [DefineUserSymbol (mkSymbol DataSymbol 4202496 (py "g") (py "g"))]
  /\ DataSymbol = DataSymbol
  /\ filter is_create
       (calls_of (process_line (H := RefHost.sample)
                    (py "G 00002000 g") RefHost.empty))
     = []
  /\ view_of (process_line (H := RefHost.sample)
                (py "G 00002000 g") RefHost.empty)
     = RefHost.define (mkSymbol DataSymbol 4202496 (py "g") (py "g"))
         RefHost.empty
  /\ result_of (process_line (H := RefHost.sample)
                  (py "G 00002000 g") RefHost.empty)
     = Ok tt.
Proof.
  split; [reflexivity|]. split; [reflexivity|].
  exact (C2_global_line (H := RefHost.sample)
           (py "G 00002000 g") RefHost.empty eq_refl eq_refl).
Defined.

Lemma sample_lines :
  splitlines RefHost.sample_output
  = [py "F 00001000 ?f"; py "G 00002000 g"; py "S 0000000a main.c:3"]
    ++ py "bad" :: [py "S 00000010 !x"].
Proof. reflexivity. Qed.

Lemma C3_source_line_witness :
  In (py "S 0000000a main.c:3") (splitlines RefHost.sample_output)
  /\ rex_match (py "S 0000000a main.c:3")
     = Some (py "S", py "0000000a", py "main.c:3")
  /\ demangle_ms (Host := RefHost.sample) tt (py "main.c:3")
     = Some (None, Flat (py "main.c:3"))
  /\ py "S 0000000a main.c:3"
     = py "S" ++ SP :: py "0000000a" ++ SP :: py "main.c:3"
  /\ filter is_comment
       (calls_of (process_line (H := RefHost.sample)
                    (py "S 0000000a main.c:3") RefHost.empty))
     = [SetCommentAt 4194314 (py "main.c:3")]
  /\ view_of (process_line (H := RefHost.sample)
                (py "S 0000000a main.c:3") RefHost.empty)
     = RefHost.comment 4194314 (py "main.c:3") RefHost.empty
  /\ result_of (process_line (H := RefHost.sample)
                  (py "S 0000000a main.c:3") RefHost.empty)
     = Ok tt.
Proof.
  assert (Hin : In (py "S 0000000a main.c:3")
                  (splitlines RefHost.sample_output))
    by (rewrite sample_lines; simpl; auto).
  split; [exact Hin|]. split; [reflexivity|]. split; [reflexivity|].
  exact (C3_source_line (H := RefHost.sample)
           RefHost.sample_output (py "S 0000000a main.c:3") RefHost.empty
           Hin eq_refl eq_refl).
Defined.

Lemma C4_address_witness :
  rex_match (py "F ffffffff ?f") = Some (py "F", py "ffffffff", py "?f")
  /\ int16 (py "ffffffff") = Some 4294967295
  /\ 0 <= hex_value (py "ffffffff") < 2 ^ 32
  /\ forall (c : call (H := RefHost.sample)) (a : Z),
       In c (calls_of (process_line (H := RefHost.sample)
                         (py "F ffffffff ?f") RefHost.empty)) ->
       call_addr c = Some a ->
       a = 4194304 + 4294967295.
Proof.
  split; [reflexivity|].
  exact (C4_address (H := RefHost.sample)
           (py "F ffffffff ?f") RefHost.empty eq_refl).
Defined.

Lemma C5_joined_name_witness :
  rex_match (py "F 00001000 ?f") = Some (py "F", py "00001000", py "?f")
  /\ demangle_ms (Host := RefHost.sample) tt (py "?f")
     = Some (Some (py "void (void)"), Parts [py "ns"; py "f"])
  /\ (forall sym : Symbol,
        In (DefineUserSymbol sym)
           (calls_of (process_line (H := RefHost.sample)
                        (py "F 00001000 ?f") RefHost.empty)) ->
        short_name sym = py "ns::f")
  /\ (py "F" <> py "S" ->
      exists sym : Symbol,
        filter is_define
          (calls_of (process_line (H := RefHost.sample)
                       (py "F 00001000 ?f") RefHost.empty))
        = [DefineUserSymbol sym]).
Proof.
  split; [reflexivity|]. split; [reflexivity|].
  exact (C5_joined_name (H := RefHost.sample)
           (py "F 00001000 ?f") RefHost.empty eq_refl eq_refl).
Defined.

(** C6 as it is worded fails on digits in upper case: the line below has
    the shape of the interface description, with eight hexadecimal
    digits for the address, and is a line of the output; the pattern
    does not match it, so processing it raises and hands on no triple. *)
Lemma C6_upper_case_counterexample :
  In (py "F 0040A1B2 main") (splitlines (py "F 0040A1B2 main" ++ [LF]))
  /\ spec_record_format (py "F 0040A1B2 main")
       (py "F") (py "0040A1B2") (py "main")
  /\ int16 (py "0040A1B2") = Some 4235698
  /\ rex_match (py "F 0040A1B2 main") = None
  /\ process_line (H := RefHost.sample) (py "F 0040A1B2 main") RefHost.empty
     = (RefHost.empty, [], Raise AttributeError).
Proof.
  split; [left; reflexivity|].
  split; [repeat split; auto|].
  repeat split.
Qed.

Lemma C6_matching_line_witness :
  In (py "F 0040a1b2 main") (splitlines (py "F 0040a1b2 main" ++ [LF]))
  /\ spec_record_format (py "F 0040a1b2 main")
       (py "F") (py "0040a1b2") (py "main")
  /\ forallb class_hex (py "0040a1b2") = true
  /\ rex_match (py "F 0040a1b2 main")
     = Some (py "F", py "0040a1b2", py "main")
  /\ (forall tag' digits' name' : pystr,
        record_format class_hex (py "F 0040a1b2 main") tag' digits' name' ->
        (tag', digits', name') = (py "F", py "0040a1b2", py "main"))
  /\ int16 (py "0040a1b2") = Some 4235698
  /\ (forall bv : RefHost.view,
        process_line (H := RefHost.sample) (py "F 0040a1b2 main") bv
        = handle_record (H := RefHost.sample)
            (py "F") (py "0040a1b2") (py "main") bv).
Proof.
  assert (Hin : In (py "F 0040a1b2 main")
                  (splitlines (py "F 0040a1b2 main" ++ [LF])))
    by (left; reflexivity).
  assert (F : spec_record_format (py "F 0040a1b2 main")
                (py "F") (py "0040a1b2") (py "main"))
    by (repeat split; auto).
  split; [exact Hin|]. split; [exact F|]. split; [reflexivity|].
  destruct (C6_matching_line (H := RefHost.sample) _ Hin F) as (Hlow & _).
  exact (Hlow eq_refl).
Defined.

Lemma C7_unmatched_line_aborts_witness :
  dbg_file (H := RefHost.sample) = Some (py "game.dbg")
  /\ check_output (Host := RefHost.sample) [py "dbgparse"; py "game.dbg"]
     = Some RefHost.sample_output
  /\ splitlines RefHost.sample_output
     = [py "F 00001000 ?f"; py "G 00002000 g"; py "S 0000000a main.c:3"]
       ++ py "bad" :: [py "S 00000010 !x"]
  /\ rex_match (py "bad") = None
  /\ (forall bv1 : RefHost.view,
        process_line (H := RefHost.sample) (py "bad") bv1
        = (bv1, [], Raise AttributeError))
  /\ result_of (load_dbg_file (H := RefHost.sample) 0 RefHost.empty)
     = Raise AttributeError
  /\ filter is_comment
       (calls_of (load_dbg_file (H := RefHost.sample) 0 RefHost.empty))
     = [SetCommentAt 4194314 (py "main.c:3")].
Proof.
  split; [reflexivity|]. split; [reflexivity|].
  split; [exact sample_lines|]. split; [reflexivity|].
  destruct (@C7_unmatched_line_aborts RefHost.sample 0
              (chr "g") (py "ame.dbg") RefHost.sample_output (py "bad")
              [py "F 00001000 ?f"; py "G 00002000 g"; py "S 0000000a main.c:3"]
              [py "S 00000010 !x"] RefHost.empty
              eq_refl eq_refl sample_lines eq_refl) as (Hline & Hrun & _).
  split; [exact Hline|].
  rewrite Hrun. split; reflexivity.
Defined.

Lemma C8_no_file_no_processing_witness :
  (dbg_file (H := RefHost.cancelled) = None
   \/ dbg_file (H := RefHost.cancelled) = Some [])
  /\ load_dbg_file (H := RefHost.cancelled) 0 RefHost.empty
     = (RefHost.empty, [], Ok tt)
  /\ filter is_subprocess
       (calls_of (load_dbg_file (H := RefHost.cancelled) 0 RefHost.empty))
     = []
  /\ view_of (load_dbg_file (H := RefHost.cancelled) 0 RefHost.empty)
     = RefHost.empty.
Proof.
  split; [left; reflexivity|].
  exact (C8_no_file_no_processing (H := RefHost.cancelled) 0 RefHost.empty
           (or_introl eq_refl)).
Defined.

Lemma C9_function_type_witness :
  rex_match (py "F 00001000 ?f") = Some (py "F", py "00001000", py "?f")
  /\ demangle_ms (Host := RefHost.sample) tt (py "?f")
     = Some (Some (py "void (void)"), Parts [py "ns"; py "f"])
  /\ get_function_at (Host := RefHost.sample) 4198400
       (RefHost.define
          (mkSymbol FunctionSymbol 4198400 (py "ns::f") (py "?f"))
          (RefHost.create 4198400 RefHost.empty))
     = Some 4198400
  /\ process_line (H := RefHost.sample) (py "F 00001000 ?f") RefHost.empty
     = (RefHost.mkView 4194304 [(4198400, Some (py "void (void)"))]
          [mkSymbol FunctionSymbol 4198400 (py "ns::f") (py "?f")] [],
        [DemangleMs (H := RefHost.sample) tt (py "?f");
         CreateUserFunction 4198400;
         DefineUserSymbol
           (mkSymbol FunctionSymbol 4198400 (py "ns::f") (py "?f"));
         GetFunctionAt 4198400;
         SetFunctionType (H := RefHost.sample) 4198400 (py "void (void)")],
        Ok tt).
Proof.
  split; [reflexivity|]. split; [reflexivity|]. split; [reflexivity|].
  destruct (C9_function_type (H := RefHost.sample)
              (py "F 00001000 ?f") RefHost.empty eq_refl eq_refl)
    as (_ & _ & Htyped & _).
  exact (Htyped (py "void (void)") 4198400 eq_refl eq_refl).
Defined.

(** C9 as it is worded fails where the view has no function at the
    address after the creation call: the demangler gives a type
    descriptor, yet no type is set, and the line ends in
    [AttributeError] with the function-creation and symbol-definition
    calls made. *)
Lemma C9_missing_function_counterexample :
  rex_match (py "F 00001000 ?f") = Some (py "F", py "00001000", py "?f")
  /\ demangle_ms (Host := Complete.unbacked) tt (py "?f")
     = Some (Some (py "void (void)"), Parts [py "ns"; py "f"])
  /\ process_line (H := Complete.unbacked) (py "F 00001000 ?f") RefHost.empty
     = (RefHost.define
          (mkSymbol FunctionSymbol 4198400 (py "ns::f") (py "?f"))
          RefHost.empty,
        [DemangleMs (H := Complete.unbacked) tt (py "?f");
         CreateUserFunction 4198400;
         DefineUserSymbol
           (mkSymbol FunctionSymbol 4198400 (py "ns::f") (py "?f"));
         GetFunctionAt 4198400],
        Raise AttributeError)
  /\ ~ (exists (f : Z) (t : pystr),
          In (SetFunctionType (H := Complete.unbacked) f t)
             (calls_of (process_line (H := Complete.unbacked)
                          (py "F 00001000 ?f") RefHost.empty))).
Proof.
  split; [reflexivity|]. split; [reflexivity|]. split; [reflexivity|].
  intros (f & t & Hin). simpl in Hin.
  repeat (destruct Hin as [X|Hin]; [discriminate X|]). contradiction.
Qed.

Lemma C10_demangle_every_line_witness :
  rex_match (py "S 00000010 !x") = Some (py "S", py "00000010", py "!x")
  /\ demangle_ms (Host := RefHost.sample) tt (py "!x") = None
  /\ process_line (H := RefHost.sample) (py "S 00000010 !x") RefHost.empty
     = (RefHost.empty, [DemangleMs (H := RefHost.sample) tt (py "!x")],
        Raise DemangleError)
  /\ for_each (H := RefHost.sample)
       ([] ++ py "S 00000010 !x" :: [py "G 00002000 g"])
       process_line RefHost.empty
     = (RefHost.empty, [DemangleMs (H := RefHost.sample) tt (py "!x")],
        Raise DemangleError).
Proof.
  split; [reflexivity|]. split; [reflexivity|].
  destruct (C10_demangle_every_line (H := RefHost.sample)
              (py "S 00000010 !x") RefHost.empty eq_refl) as (_ & _ & Hfail).
  destruct (Hfail eq_refl) as (Hline & Hloop).
  split; [exact Hline|].
  exact (Hloop [] [py "G 00002000 g"] RefHost.empty [] eq_refl).
Defined.

(** * Further properties of the command *)

(** ** Lines and the pattern *)

(** Characters without boundary at the front of a text go to the line
    being read. *)
Lemma splitlines_from_prefix (a s acc : pystr) :
  forallb (fun c => negb (is_linebreak c)) a = true ->
  splitlines_from acc (a ++ s) = splitlines_from (rev a ++ acc) s.
Proof.
  revert acc; induction a as [|c a IH]; intros acc Ha; [reflexivity|].
  simpl in Ha. apply andb_true_iff in Ha. destruct Ha as [Hc Ha].
  apply negb_true_iff in Hc.
  assert (Hcr : N.eqb c CR = false).
  { destruct (N.eqb_spec c CR) as [->|]; [discriminate Hc|reflexivity]. }
  cbn [app splitlines_from]. rewrite Hcr, Hc, (IH _ Ha).
  cbn [rev]. rewrite <- app_assoc. reflexivity.
Qed.

(** A text has no line exactly when it is empty. *)
Lemma splitlines_nil (s : pystr) : splitlines s = [] <-> s = [].
Proof.
  split; [|intros ->; reflexivity].
  unfold splitlines.
  assert (G : forall (t acc : pystr),
             splitlines_from acc t = [] -> t = [] /\ acc = []).
  { induction t as [|c t IH]; intros acc; simpl.
    - destruct acc; [auto|discriminate].
    - destruct (N.eqb c CR).
      + destruct t as [|d t']; [discriminate|].
        destruct (N.eqb d LF); discriminate.
      + destruct (is_linebreak c); [discriminate|].
        intros E. destruct (IH _ E) as [_ X]. discriminate X. }
  intros E. apply (G s [] E).
Qed.

(** X9. A record that holds no line boundary is read the same whether
    the tool ends it with LF, with CR LF or, for the last one, with
    nothing: it is the first line, without its ending, and the lines of
    the rest follow. *)
Theorem splitlines_line_endings (a rest : pystr) :
  forallb (fun c => negb (is_linebreak c)) a = true ->
  splitlines (a ++ LF :: rest) = a :: splitlines rest
  /\ splitlines (a ++ CR :: LF :: rest) = a :: splitlines rest
  /\ (a <> [] -> splitlines a = [a]).
Proof.
  intros Ha. unfold splitlines. split; [|split].
  - rewrite splitlines_from_prefix by exact Ha.
    rewrite app_nil_r. cbn. rewrite rev_involutive. reflexivity.
  - rewrite splitlines_from_prefix by exact Ha.
    rewrite app_nil_r. cbn. rewrite rev_involutive. reflexivity.
  - intros Hne. rewrite <- (app_nil_r a) at 1.
    rewrite splitlines_from_prefix by exact Ha.
    rewrite app_nil_r. cbn.
    destruct (rev a) as [|c r] eqn:E.
    + apply (f_equal (@rev char)) in E. rewrite rev_involutive in E.
      contradiction.
    + rewrite <- E, rev_involutive. reflexivity.
Qed.

Lemma splitlines_line_endings_witness :
  forallb (fun c => negb (is_linebreak c)) (py "G 00002000 g") = true
  /\ splitlines (py "G 00002000 g" ++ LF :: py "S 0000000a main.c:3")
     = py "G 00002000 g" :: splitlines (py "S 0000000a main.c:3")
  /\ splitlines (py "G 00002000 g" ++ CR :: LF :: py "S 0000000a main.c:3")
     = py "G 00002000 g" :: splitlines (py "S 0000000a main.c:3")
  /\ (py "G 00002000 g" <> [] -> splitlines (py "G 00002000 g") = [py "G 00002000 g"]).
Proof.
  split; [reflexivity|].
  exact (@splitlines_line_endings (py "G 00002000 g")
           (py "S 0000000a main.c:3") eq_refl).
Defined.

(** X5. On a line without line feed, as every line of the output is,
    the pattern matches with groups [(tag, digits, name)] exactly when
    the line is the tag, a space, the digits, a space and the name, with
    the tag among F, G and S and eight digits among [0-9a-f]: the groups
    put the line back together and nothing else matches. *)
Theorem rex_match_iff_record_format (line tag digits name : pystr) :
  forallb class_dot line = true ->
  (rex_match line = Some (tag, digits, name)
   <-> record_format class_hex line tag digits name).
Proof.
  intros Hline. split.
  - intros E.
    destruct (rex_match_inv _ E) as (Htag & Hlen & Hhex & _ & [L|L]).
    + repeat split; assumption.
    + exfalso. rewrite forallb_forall in Hline.
      assert (X : class_dot LF = true); [|discriminate X].
      apply Hline. rewrite L. apply in_or_app. right. right.
      apply in_or_app. right. right. apply in_or_app. right. left.
      reflexivity.
  - intros F. apply rex_match_intro; [exact F|].
    destruct F as (L & _). rewrite forallb_forall in *.
    intros x Hx. apply Hline. rewrite L.
    apply in_or_app. right. right. apply in_or_app. right. right. exact Hx.
Qed.

Lemma rex_match_iff_record_format_witness :
  forallb class_dot (py "S 0000000a main.c:3") = true
  /\ (rex_match (py "S 0000000a main.c:3")
      = Some (py "S", py "0000000a", py "main.c:3")
      <-> record_format class_hex (py "S 0000000a main.c:3")
            (py "S") (py "0000000a") (py "main.c:3")).
Proof.
  split; [reflexivity|].
  exact (@rex_match_iff_record_format (py "S 0000000a main.c:3")
           (py "S") (py "0000000a") (py "main.c:3") eq_refl).
Defined.

Lemma rex_match_length (line typ digits name : pystr) :
  rex_match line = Some (typ, digits, name) -> (11 <= length line)%nat.
Proof.
  intros E.
  destruct (rex_match_inv _ E) as (Htyp & Hlen & _ & _ & L).
  assert (Ht : length typ = 1%nat)
    by (destruct Htyp as [->|[->| ->]]; reflexivity).
  destruct L as [-> | ->];
    cbn [length]; rewrite ?length_app; cbn [length];
    rewrite ?length_app; cbn [length]; lia.
Qed.



Section Further.
Context {H : Host}.



(** X6. A line of fewer than eleven characters, an empty line among
    them, does not match: its processing raises [AttributeError], makes
    no call and leaves the view as it was. *)
Theorem short_line_raises (line : pystr) (bv : BinaryView) :
  (length line < 11)%nat ->
  rex_match line = None
  /\ process_line line bv = (bv, [], Raise AttributeError).
Proof.
  intros Hlen.
  assert (E : rex_match line = None).
  { destruct (rex_match line) as [[[t d] n]|] eqn:E; [|reflexivity].
    apply rex_match_length in E. lia. }
  split; [exact E|]. apply process_line_unmatched. exact E.
Qed.

(** X7. On an "F" line with a type descriptor, when the view has no
    function at the address after the creation call, the assignment of
    the type raises [AttributeError]: the creation and the definition of
    the symbol have been made and stay, and no type is set. *)
Theorem missing_function_raises
    (line digits name : pystr) (bv : BinaryView)
    (t : FuncType) (mn : demangled) :
  rex_match line = Some (py "F", digits, name) ->
  demangle_ms (arch bv) name = Some (Some t, mn) ->
  let a := start bv + hex_value digits in
  let sym := mkSymbol FunctionSymbol a (display_name mn) name in
  let bv2 := define_user_symbol sym (create_user_function a bv) in
  get_function_at a bv2 = None ->
  process_line line bv =
  (bv2,
   [DemangleMs (arch bv) name; CreateUserFunction a; DefineUserSymbol sym;
    GetFunctionAt a],
   Raise AttributeError).
Proof.
  intros E D a sym bv2 G.
  rewrite (process_line_run _ _ E). unfold record_run. rewrite D.
  cbn [str_eqb py map list_ascii_of_string chr N_of_ascii N.eqb Pos.eqb andb].
  fold a. fold sym. fold bv2. rewrite G. reflexivity.
Qed.

(** A line calls no subprocess. *)
Lemma process_line_no_subprocess (line : pystr) (bv : BinaryView) :
  filter is_subprocess (calls_of (process_line line bv)) = [].
Proof.
  destruct (rex_match line) as [[[typ digits] name]|] eqn:E.
  - rewrite (process_line_run _ _ E). unfold record_run.
    destruct (demangle_ms (arch bv) name) as [[mt mn]|]; [|reflexivity].
    destruct (str_eqb typ (py "F"));
      [destruct mt as [t|]; [destruct (get_function_at _ _) as [f|]|]
      |destruct (str_eqb typ (py "G")); [|destruct (str_eqb typ (py "S"))]];
      reflexivity.
  - rewrite process_line_unmatched by exact E. reflexivity.
Qed.

Lemma for_each_no_subprocess (lines : list pystr) (bv : BinaryView) :
  filter is_subprocess (calls_of (for_each lines process_line bv)) = [].
Proof.
  revert bv; induction lines as [|x lines IH]; intros bv; [reflexivity|].
  simpl. unfold bind.
  pose proof (process_line_no_subprocess x bv) as Hx.
  destruct (process_line x bv) as [[bv1 l1] [[]|e]]; [|exact Hx].
  pose proof (IH bv1) as Hrest.
  destruct (for_each lines process_line bv1) as [[bv2 l2] r].
  unfold calls_of in *. simpl in *. rewrite filter_app, Hx, Hrest.
  reflexivity.
Qed.

(** X1. The command runs the external tool at most once: exactly once,
    as [dbgparse] with the chosen file name as its only argument, when
    the dialog gives a name that is not empty, whatever the tool prints
    and however the lines fare, and not at all otherwise. *)
Theorem subprocess_called_once (function : Z) (bv : BinaryView) :
  filter is_subprocess (calls_of (load_dbg_file function bv)) =
  match dbg_file with
  | Some (c :: path) => [CheckOutput [py "dbgparse"; c :: path]]
  | _ => []
  end.
Proof.
  unfold load_dbg_file.
  destruct dbg_file as [[|c path]|]; try reflexivity.
  unfold bind, ask, expect, ret, raise.
  destruct (check_output [py "dbgparse"; c :: path]) as [output|];
    [|reflexivity].
  cbn [app].
  pose proof (for_each_no_subprocess (splitlines output) bv) as Hl.
  destruct (for_each (splitlines output) process_line bv) as [[bv2 l2] r].
  unfold calls_of in *. simpl in *. rewrite Hl. reflexivity.
Qed.

(** X3. The loop has no line to run exactly when the tool prints
    nothing; the command then returns normally with the call of the tool
    as its only call and the view as it was.  Any other output, a lone
    line ending included, has a first line that must match. *)
Theorem empty_output_no_change
    (function : Z) (c : char) (path output : pystr) (bv : BinaryView) :
  dbg_file = Some (c :: path) ->
  check_output [py "dbgparse"; c :: path] = Some output ->
  (splitlines output = [] <-> output = [])
  /\ (output = [] ->
      load_dbg_file function bv =
      (bv, [CheckOutput [py "dbgparse"; c :: path]], Ok tt))
  /\ (output <> [] ->
      exists (line : pystr) (rest : list pystr),
        splitlines output = line :: rest
        /\ (rex_match line = None ->
            load_dbg_file function bv =
            (bv, [CheckOutput [py "dbgparse"; c :: path]],
             Raise AttributeError))).
Proof.
  intros Hfile Hout. split; [apply splitlines_nil|]. split.
  - intros ->. unfold load_dbg_file. rewrite Hfile.
    unfold bind, ask, expect, ret. rewrite Hout. reflexivity.
  - intros Hne.
    destruct (splitlines output) as [|line rest] eqn:E.
    + apply splitlines_nil in E. contradiction.
    + exists line, rest. split; [reflexivity|].
      intros M. unfold load_dbg_file. rewrite Hfile.
      unfold bind, ask, expect, ret. rewrite Hout, E. cbn [app for_each].
      unfold bind. rewrite process_line_unmatched by exact M. reflexivity.
Qed.

End Further.

(** ** Whole runs *)

Section WholeRuns.
Context {H : Host}.

(** What a line that ends normally has done. *)
Lemma process_line_ok (line : pystr) (bv bv1 : BinaryView) (l1 : list call) :
  process_line line bv = (bv1, l1, Ok tt) ->
  rex_match line <> None
  /\ length (filter is_demangle l1) = 1%nat
  /\ length (filter is_create l1) = count_tag (py "F") [line]
  /\ length (filter is_define l1)
     = (count_tag (py "F") [line] + count_tag (py "G") [line])%nat
  /\ length (filter is_comment l1) = count_tag (py "S") [line].
Proof.
  destruct (rex_match line) as [[[typ digits] name]|] eqn:E.
  - rewrite (process_line_run _ _ E). unfold record_run.
    unfold count_tag. cbn [filter]. unfold has_tag. rewrite E.
    destruct (rex_match_inv _ E) as (Htyp & _).
    destruct (demangle_ms (arch bv) name) as [[mt mn]|]; [|discriminate].
    destruct Htyp as [->|[->| ->]];
      cbn [str_eqb py map list_ascii_of_string chr N_of_ascii N.eqb Pos.eqb andb].
    + destruct mt as [t|]; [destruct (get_function_at _ _) as [f|]|];
        intros X; try discriminate X; injection X as <- <-;
        (split; [discriminate|]); repeat split.
    + intros X; injection X as <- <-.
      (split; [discriminate|]); repeat split.
    + intros X; injection X as <- <-.
      (split; [discriminate|]); repeat split.
  - rewrite process_line_unmatched by exact E. discriminate.
Qed.

Lemma for_each_ok (lines : list pystr) (bv bv' : BinaryView) (l : list call) :
  for_each lines process_line bv = (bv', l, Ok tt) ->
  Forall (fun line => rex_match line <> None) lines
  /\ length (filter is_demangle l) = length lines
  /\ length (filter is_create l) = count_tag (py "F") lines
  /\ length (filter is_define l)
     = (count_tag (py "F") lines + count_tag (py "G") lines)%nat
  /\ length (filter is_comment l) = count_tag (py "S") lines.
Proof.
  revert bv l; induction lines as [|x lines IH]; intros bv l.
  - simpl. unfold ret. intros X; injection X as <- <-.
    repeat split. constructor.
  - simpl. unfold bind.
    destruct (process_line x bv) as [[bv1 l1] [[]|e]] eqn:Ex; [|discriminate].
    destruct (for_each lines process_line bv1) as [[bv2 l2] r] eqn:Er.
    intros X; injection X as <- <- ->.
    destruct (process_line_ok _ _ Ex) as (Hm & Hd & Hc & Hs & Hk).
    destruct (IH _ _ Er) as (Hm' & Hd' & Hc' & Hs' & Hk').
    rewrite !filter_app, !length_app, Hd, Hc, Hs, Hk, Hd', Hc', Hs', Hk'.
    unfold count_tag in *. cbn [filter length] in *.
    repeat split.
    + constructor; assumption.
    + destruct (has_tag (py "F") x); reflexivity.
    + destruct (has_tag (py "F") x), (has_tag (py "G") x);
        cbn [length]; lia.
    + destruct (has_tag (py "S") x); reflexivity.
Qed.

(** X4. The command returns normally only when the tool ran and every
    line of its output matched the pattern and had its name demangled:
    the demangler was then called as many times as there are lines. *)
Theorem normal_return_all_lines_matched
    (function : Z) (c : char) (path : pystr) (bv : BinaryView) :
  dbg_file = Some (c :: path) ->
  result_of (load_dbg_file function bv) = Ok tt ->
  exists output : pystr,
    check_output [py "dbgparse"; c :: path] = Some output
    /\ Forall (fun line => rex_match line <> None) (splitlines output)
    /\ length (filter is_demangle (calls_of (load_dbg_file function bv)))
       = length (splitlines output).
Proof.
  intros Hfile. unfold load_dbg_file. rewrite Hfile.
  unfold bind, ask, expect, ret, raise.
  destruct (check_output [py "dbgparse"; c :: path]) as [output|];
    [|discriminate].
  cbn [app].
  destruct (for_each (splitlines output) process_line bv)
    as [[bv2 l2] r] eqn:E.
  unfold result_of, calls_of. cbn [fst snd]. intros ->.
  destruct (for_each_ok _ _ E) as (Hm & Hd & _).
  exists output. repeat split; assumption.
Qed.

(** X11. After a normal return the calls add up by tag: as many
    function creations as "F" lines, as many symbol definitions as "F"
    and "G" lines together, and as many comments as "S" lines. *)
Theorem normal_return_call_counts
    (function : Z) (c : char) (path output : pystr) (bv : BinaryView) :
  dbg_file = Some (c :: path) ->
  check_output [py "dbgparse"; c :: path] = Some output ->
  result_of (load_dbg_file function bv) = Ok tt ->
  let calls := calls_of (load_dbg_file function bv) in
  let lines := splitlines output in
  length (filter is_create calls) = count_tag (py "F") lines
  /\ length (filter is_define calls)
     = (count_tag (py "F") lines + count_tag (py "G") lines)%nat
  /\ length (filter is_comment calls) = count_tag (py "S") lines.
Proof.
  intros Hfile Hout. unfold load_dbg_file. rewrite Hfile.
  unfold bind, ask, expect, ret, raise. rewrite Hout. cbn [app].
  destruct (for_each (splitlines output) process_line bv)
    as [[bv2 l2] r] eqn:E.
  unfold result_of, calls_of. cbn [fst snd]. intros ->.
  destruct (for_each_ok _ _ E) as (_ & _ & Hc & Hs & Hk).
  cbn [filter is_create is_define is_comment]. auto.
Qed.

End WholeRuns.

(** ** The further properties on sample runs *)


Lemma short_line_raises_witness :
  (length (@nil char) < 11)%nat
  /\ rex_match [] = None
  /\ process_line (H := Complete.host) [] RefHost.empty
     = (RefHost.empty, [], Raise AttributeError).
Proof.
  assert (L : (length (@nil char) < 11)%nat) by (simpl; lia).
  split; [exact L|].
  exact (@short_line_raises Complete.host [] RefHost.empty L).
Defined.

Lemma missing_function_raises_witness :
  rex_match (py "F 00001000 ?f") = Some (py "F", py "00001000", py "?f")
  /\ demangle_ms (Host := Complete.unbacked) tt (py "?f")
     = Some (Some (py "void (void)"), Parts [py "ns"; py "f"])
  /\ get_function_at (Host := Complete.unbacked) 4198400
       (RefHost.define
          (mkSymbol FunctionSymbol 4198400 (py "ns::f") (py "?f"))
          RefHost.empty)
     = None
  /\ process_line (H := Complete.unbacked) (py "F 00001000 ?f") RefHost.empty
     = (RefHost.define
          (mkSymbol FunctionSymbol 4198400 (py "ns::f") (py "?f"))
          RefHost.empty,
        [DemangleMs (H := Complete.unbacked) tt (py "?f");
         CreateUserFunction 4198400;
         DefineUserSymbol
           (mkSymbol FunctionSymbol 4198400 (py "ns::f") (py "?f"));
         GetFunctionAt 4198400],
        Raise AttributeError).
Proof.
  split; [reflexivity|]. split; [reflexivity|]. split; [reflexivity|].
  exact (@missing_function_raises Complete.unbacked
           (py "F 00001000 ?f") (py "00001000") (py "?f") RefHost.empty
           (py "void (void)") (Parts [py "ns"; py "f"])
           eq_refl eq_refl eq_refl).
Defined.

Lemma empty_output_no_change_witness :
  dbg_file (H := Complete.silent) = Some (py "game.dbg")
  /\ check_output (Host := Complete.silent) [py "dbgparse"; py "game.dbg"]
     = Some []
  /\ load_dbg_file (H := Complete.silent) 0 RefHost.empty
     = (RefHost.empty,
        [CheckOutput (H := Complete.silent) [py "dbgparse"; py "game.dbg"]],
        Ok tt).
Proof.
  split; [reflexivity|]. split; [reflexivity|].
  destruct (@empty_output_no_change Complete.silent 0 (chr "g")
              (py "ame.dbg") [] RefHost.empty eq_refl eq_refl)
    as (_ & Hempty & _).
  exact (Hempty eq_refl).
Defined.

Lemma normal_return_all_lines_matched_witness :
  dbg_file (H := Complete.host) = Some (py "game.dbg")
  /\ result_of (load_dbg_file (H := Complete.host) 0 RefHost.empty) = Ok tt
  /\ exists output : pystr,
       check_output (Host := Complete.host) [py "dbgparse"; py "game.dbg"]
       = Some output
       /\ Forall (fun line => rex_match line <> None) (splitlines output)
       /\ length (filter is_demangle
                    (calls_of (load_dbg_file (H := Complete.host)
                                 0 RefHost.empty)))
          = length (splitlines output).
Proof.
  split; [reflexivity|]. split; [reflexivity|].
  exact (@normal_return_all_lines_matched Complete.host 0 (chr "g")
           (py "ame.dbg") RefHost.empty eq_refl eq_refl).
Defined.

Lemma normal_return_call_counts_witness :
  dbg_file (H := Complete.host) = Some (py "game.dbg")
  /\ check_output (Host := Complete.host) [py "dbgparse"; py "game.dbg"]
     = Some Complete.output
  /\ result_of (load_dbg_file (H := Complete.host) 0 RefHost.empty) = Ok tt
  /\ length (filter is_create
               (calls_of (load_dbg_file (H := Complete.host)
                            0 RefHost.empty)))
     = 1%nat
  /\ length (filter is_define
               (calls_of (load_dbg_file (H := Complete.host)
                            0 RefHost.empty)))
     = 2%nat
  /\ length (filter is_comment
               (calls_of (load_dbg_file (H := Complete.host)
                            0 RefHost.empty)))
     = 1%nat.
Proof.
  split; [reflexivity|]. split; [reflexivity|]. split; [reflexivity|].
  exact (@normal_return_call_counts Complete.host 0 (chr "g")
           (py "ame.dbg") Complete.output RefHost.empty
           eq_refl eq_refl eq_refl).
Defined.
